(** * Boid flockers with an epidemic state: the per-agent update rule

    A shallow embedding of [src/boid.py] (class [Boid]): the three steering
    rules [cohere], [separate] and [match_heading], the motion update of
    [step], the stochastic transition [infection_recover] and the constructor
    [__init__], followed by the properties of the specification that concern
    them.

    Numbers.  The program computes on numpy [float64] values.  They are
    modelled by [num]: a finite value is an exact real number, and [NaN]
    stands for the result of an invalid operation, which numpy propagates
    through every later operation and for which every comparison is false.
    Rounding, overflow and signed zeros are not modelled by [num]; it serves
    the properties that are about which operations the code applies to which
    operands.  The properties that depend on the outcome of the arithmetic
    itself (the length of the normalised velocity, division by a zero norm)
    are stated on a second embedding of the same lines, the module [F64], on
    binary64 numbers.

    Randomness.  [self.random.random()] reads the shared generator of the
    model.  The generator is a stream of samples with a cursor, threaded
    through the code by a state monad. *)

From Stdlib Require Import Floats.
From Stdlib Require Import Reals Lra List String ZArith Bool Lia Permutation.
Import ListNotations.

Local Open Scope R_scope.

(** ** Numbers *)

Inductive num : Type :=
| Fin (r : R)
| NaN.

Definition nadd (a b : num) : num :=
  match a, b with
  | Fin x, Fin y => Fin (x + y)
  | _, _ => NaN
  end.

Definition nsub (a b : num) : num :=
  match a, b with
  | Fin x, Fin y => Fin (x - y)
  | _, _ => NaN
  end.

Definition nmul (a b : num) : num :=
  match a, b with
  | Fin x, Fin y => Fin (x * y)
  | _, _ => NaN
  end.

(** Division of finite values by a finite zero is invalid.  (numpy gives an
    infinity when only the divisor is zero; at the division sites of this
    program the divisor is a positive count, the constant 2, or the norm of
    the dividend, which without rounding is zero only when the dividend is;
    [F64] has the division of binary64.) *)
Definition ndiv (a b : num) : num :=
  match a, b with
  | Fin x, Fin y => if Req_dec_T y 0 then NaN else Fin (x / y)
  | _, _ => NaN
  end.

Definition nneg (a : num) : num :=
  match a with
  | Fin x => Fin (- x)
  | NaN => NaN
  end.

Definition nsqrt (a : num) : num :=
  match a with
  | Fin x => if Rlt_dec x 0 then NaN else Fin (sqrt x)
  | NaN => NaN
  end.

(** [a < b] on floats: false as soon as one side is not a number. *)
Definition nltb (a b : num) : bool :=
  match a, b with
  | Fin x, Fin y => if Rlt_dec x y then true else false
  | _, _ => false
  end.

Definition is_finite (a : num) : Prop :=
  match a with
  | Fin _ => True
  | NaN => False
  end.

(** A Python [int] used in float arithmetic. *)
Definition of_int (n : Z) : num := Fin (IZR n).

(** ** Two-dimensional vectors (numpy arrays of shape (2,)) *)

Record vec : Type := mkvec { vx : num; vy : num }.

(** [np.zeros(2)] *)
Definition vzero : vec := mkvec (Fin 0) (Fin 0).

Definition vadd (u v : vec) : vec := mkvec (nadd (vx u) (vx v)) (nadd (vy u) (vy v)).
Definition vsub (u v : vec) : vec := mkvec (nsub (vx u) (vx v)) (nsub (vy u) (vy v)).
Definition vneg (u : vec) : vec := mkvec (nneg (vx u)) (nneg (vy u)).

(** [u * k] and [u / k] for a scalar [k] (broadcast). *)
Definition vscale (u : vec) (k : num) : vec := mkvec (nmul (vx u) k) (nmul (vy u) k).
Definition vdivs (u : vec) (k : num) : vec := mkvec (ndiv (vx u) k) (ndiv (vy u) k).

(** [np.linalg.norm(u)]: the square root of the dot product of [u] with itself. *)
Definition norm (u : vec) : num :=
  nsqrt (nadd (nmul (vx u) (vx u)) (nmul (vy u) (vy u))).

Definition vfinite (u : vec) : Prop := is_finite (vx u) /\ is_finite (vy u).

(** The sum of a sequence of vectors, as mathematics writes it. *)
Definition vsum (l : list vec) : vec := fold_right vadd vzero l.


(** ** The agent *)

(** The attributes of a [Boid].  [status] is the health state set by the
    constructor and read by the transition; [state] is an attribute that the
    constructor does not create ([None]) and that only [infection_recover]
    assigns.  The health states are free-form strings in the program. *)
Record Boid : Type := mkBoid {
  unique_id : Z;
  pos : vec;
  speed : num;
  velocity : vec;
  vision : num;
  separation : num;
  cohere_factor : num;
  separate_factor : num;
  match_factor : num;
  status : string;
  state : option string;
  infection_time : Z;
  motality : num;
  infection_rate : num
}.

Definition with_velocity (b : Boid) (v : vec) : Boid :=
  mkBoid (unique_id b) (pos b) (speed b) v (vision b) (separation b)
         (cohere_factor b) (separate_factor b) (match_factor b)
         (status b) (state b) (infection_time b) (motality b) (infection_rate b).

Definition with_state (b : Boid) (s : option string) : Boid :=
  mkBoid (unique_id b) (pos b) (speed b) (velocity b) (vision b) (separation b)
         (cohere_factor b) (separate_factor b) (match_factor b)
         (status b) s (infection_time b) (motality b) (infection_rate b).

Definition with_infection_time (b : Boid) (t : Z) : Boid :=
  mkBoid (unique_id b) (pos b) (speed b) (velocity b) (vision b) (separation b)
         (cohere_factor b) (separate_factor b) (match_factor b)
         (status b) (state b) t (motality b) (infection_rate b).

Definition susceptible : string := "susceptible".
Definition infected : string := "infected".
Definition recovered : string := "recovered".
Definition removed : string := "removed".

(** An absent optional argument takes the default of the signature. *)
Definition default {A : Type} (d : A) (o : option A) : A :=
  match o with
  | Some a => a
  | None => d
  end.

(** [Boid.__init__].  [cohere], [separate] and [match] default to 0.025, 0.25
    and 0.04.  The parameter [infection_time] may be any object. *)
Definition Boid_init {T : Type} (unique_id : Z) (pos : vec) (speed : num)
    (velocity : vec) (vision separation : num) (initial_status : string)
    (infection_time : T) (cohere separate match_ : option num) : Boid :=
  {| unique_id := unique_id;
     pos := pos;
     speed := speed;
     velocity := velocity;
     vision := vision;
     separation := separation;
     cohere_factor := default (Fin 0.025) cohere;
     separate_factor := default (Fin 0.25) separate;
     match_factor := default (Fin 0.04) match_;
     status := initial_status;
     state := None;
     infection_time := 0%Z;
     motality := Fin 0.1;
     infection_rate := Fin 0.5 |}.

(** ** The shared random source *)

Record Rng : Type := mkRng { samples : nat -> R; cursor : nat }.

(** Computations that draw from the generator. *)
Definition M (A : Type) : Type := Rng -> A * Rng.

Definition ret {A : Type} (a : A) : M A := fun g => (a, g).

Definition bind {A B : Type} (m : M A) (k : A -> M B) : M B :=
  fun g => let (a, g') := m g in k a g'.

Notation "x <- m ;; k" := (bind m (fun x => k))
  (at level 61, m at next level, right associativity).

(** [self.random.random()] *)
Definition random : M num :=
  fun g => (Fin (samples g (cursor g)), mkRng (samples g) (S (cursor g))).

(** [for x in l: s = body(x, s)] *)
Fixpoint for_each {A St : Type} (body : A -> St -> M St) (l : list A) (s : St) : M St :=
  match l with
  | [] => ret s
  | a :: l' => s' <- body a s ;; for_each body l' s'
  end.

(** Truth value of a Python list. *)
Definition truthy {A : Type} (l : list A) : bool :=
  match l with
  | [] => false
  | _ :: _ => true
  end.

(** ** The infection transition *)

(** The body of the loop over the neighbours (lines 114-116). *)
Definition expose (neighbor self : Boid) : M Boid :=
  if (status neighbor =? infected)%string then
    x <- random ;;
    if nltb x (infection_rate self)
    then ret (with_state self (Some infected))
    else ret self
  else ret self.

(** The first statement of [infection_recover] (lines 111-116). *)
Definition exposure (self : Boid) (neighbors : list Boid) : M Boid :=
  if truthy neighbors then
    if (status self =? susceptible)%string
    then for_each expose neighbors self
    else ret self
  else ret self.

(** The second statement of [infection_recover] (lines 117-123). *)
Definition resolution (self : Boid) : M Boid :=
  if (status self =? infected)%string then
    self' <- (if (infection_time self >? 10)%Z then
                x <- random ;;
                if nltb x (motality self)
                then ret (with_state self (Some removed))
                else ret (with_state self (Some recovered))
              else ret self) ;;
    ret (with_infection_time self' (infection_time self' + 1)%Z)
  else ret self.

Definition infection_recover (self : Boid) (neighbors : list Boid) : M Boid :=
  self' <- exposure self neighbors ;;
  resolution self'.

(** A sequence of ticks of the transition, one neighbour set per tick. *)
Fixpoint run_ticks (self : Boid) (ticks : list (list Boid)) : M Boid :=
  match ticks with
  | [] => ret self
  | neighbors :: ticks' =>
      self' <- infection_recover self neighbors ;;
      run_ticks self' ticks'
  end.

(** ** Steering and motion, over the space of the model *)

Section Space.

(** [self.model.space]: the continuous space is outside this program. *)
Variable get_heading : vec -> vec -> vec.
Variable get_distance : vec -> vec -> num.
Variable get_neighbors : vec -> num -> bool -> list Boid.

Definition cohere (self : Boid) (neighbors : list Boid) : vec :=
  if truthy neighbors then
    vdivs (fold_left (fun acc neighbor => vadd acc (get_heading (pos self) (pos neighbor)))
                     neighbors vzero)
          (of_int (Z.of_nat (List.length neighbors)))
  else vzero.

Definition separate (self : Boid) (neighbors : list Boid) : vec :=
  let me := pos self in
  let them := map pos neighbors in
  fold_left (fun separation_vector other =>
               if nltb (get_distance me other) (separation self)
               then vsub separation_vector (get_heading me other)
               else separation_vector)
            them vzero.

Definition match_heading (self : Boid) (neighbors : list Boid) : vec :=
  if truthy neighbors then
    vdivs (fold_left (fun acc neighbor => vadd acc (velocity neighbor)) neighbors vzero)
          (of_int (Z.of_nat (List.length neighbors)))
  else vzero.

(** The velocity before normalisation (line 98-100). *)
Definition combined (self : Boid) (neighbors : list Boid) : vec :=
  vadd (velocity self)
       (vdivs (vadd (vadd (vscale (cohere self neighbors) (cohere_factor self))
                          (vscale (separate self neighbors) (separate_factor self)))
                    (vscale (match_heading self neighbors) (match_factor self)))
              (of_int 2)).

(** [step] returns the agent as it stands when [space.move_agent] is called
    (line 104), together with the position handed to that call.  The call
    itself belongs to the space and is not run here: the [pos] of the
    returned agent is still the old one.  [F64.step] below includes it. *)
Definition step (self : Boid) : M (Boid * vec) :=
  let neighbors := get_neighbors (pos self) (vision self) false in
  let self := with_velocity self (combined self neighbors) in
  let self := with_velocity self (vdivs (velocity self) (norm (velocity self))) in
  let new_pos := vadd (pos self) (vscale (velocity self) (speed self)) in
  self' <- infection_recover self neighbors ;;
  ret (self', new_pos).

End Space.

(** * The same code on binary64 numbers

    The module [F64] embeds the same source lines on the numbers the program
    computes with: numpy [float64] is IEEE 754 binary64, which is the
    primitive type [float], with the same correctly rounded [+], [-], [*],
    [/] and square root, the same infinities, signed zeros and not-a-number,
    and comparisons that are false on a not-a-number.  It decides the
    properties that depend on rounding, overflow or underflow.  Here [step]
    also records what [space.move_agent] does to the agent: it assigns to
    [pos] the position as the space adjusts it ([torus_adj]). *)

Module F64.

Local Open Scope float_scope.

Record vec : Type := mkvec { vx : float; vy : float }.

(** [np.zeros(2)] *)
Definition vzero : vec := mkvec 0 0.

Definition vadd (u v : vec) : vec := mkvec (vx u + vx v) (vy u + vy v).
Definition vsub (u v : vec) : vec := mkvec (vx u - vx v) (vy u - vy v).
Definition vscale (u : vec) (k : float) : vec := mkvec (vx u * k) (vy u * k).
Definition vdivs (u : vec) (k : float) : vec := mkvec (vx u / k) (vy u / k).

(** [np.linalg.norm(u)]: [sqrt(dot(u, u))]. *)
Definition norm (u : vec) : float :=
  PrimFloat.sqrt (vx u * vx u + vy u * vy u).

(** A Python [int] between 0 and 2^63 used in float arithmetic (the constant
    2 and the length of a list). *)
Definition of_int (n : Z) : float := of_uint63 (Uint63.of_Z n).

Record Boid : Type := mkBoid {
  unique_id : Z;
  pos : vec;
  speed : float;
  velocity : vec;
  vision : float;
  separation : float;
  cohere_factor : float;
  separate_factor : float;
  match_factor : float;
  status : string;
  state : option string;
  infection_time : Z;
  motality : float;
  infection_rate : float
}.

Definition with_pos (b : Boid) (p : vec) : Boid :=
  mkBoid (unique_id b) p (speed b) (velocity b) (vision b) (separation b)
         (cohere_factor b) (separate_factor b) (match_factor b)
         (status b) (state b) (infection_time b) (motality b) (infection_rate b).

Definition with_velocity (b : Boid) (v : vec) : Boid :=
  mkBoid (unique_id b) (pos b) (speed b) v (vision b) (separation b)
         (cohere_factor b) (separate_factor b) (match_factor b)
         (status b) (state b) (infection_time b) (motality b) (infection_rate b).

Definition with_state (b : Boid) (s : option string) : Boid :=
  mkBoid (unique_id b) (pos b) (speed b) (velocity b) (vision b) (separation b)
         (cohere_factor b) (separate_factor b) (match_factor b)
         (status b) s (infection_time b) (motality b) (infection_rate b).

Definition with_infection_time (b : Boid) (t : Z) : Boid :=
  mkBoid (unique_id b) (pos b) (speed b) (velocity b) (vision b) (separation b)
         (cohere_factor b) (separate_factor b) (match_factor b)
         (status b) (state b) t (motality b) (infection_rate b).

(** [Boid.__init__]; the decimal constants are rounded to binary64 as Python
    rounds them. *)
Definition Boid_init {T : Type} (unique_id : Z) (pos : vec) (speed : float)
    (velocity : vec) (vision separation : float) (initial_status : string)
    (infection_time : T) (cohere separate match_ : option float) : Boid :=
  {| unique_id := unique_id;
     pos := pos;
     speed := speed;
     velocity := velocity;
     vision := vision;
     separation := separation;
     cohere_factor := default 0x1.999999999999ap-6 cohere;
     separate_factor := default 0.25 separate;
     match_factor := default 0x1.47ae147ae147bp-5 match_;
     status := initial_status;
     state := None;
     infection_time := 0%Z;
     motality := 0x1.999999999999ap-4;
     infection_rate := 0.5 |}.

Record Rng : Type := mkRng { samples : nat -> float; cursor : nat }.

Definition M (A : Type) : Type := Rng -> A * Rng.

Definition ret {A : Type} (a : A) : M A := fun g => (a, g).

Definition bind {A B : Type} (m : M A) (k : A -> M B) : M B :=
  fun g => let (a, g') := m g in k a g'.

(** [self.random.random()] *)
Definition random : M float :=
  fun g => (samples g (cursor g), mkRng (samples g) (S (cursor g))).

Fixpoint for_each {A St : Type} (body : A -> St -> M St) (l : list A) (s : St) : M St :=
  match l with
  | [] => ret s
  | a :: l' => bind (body a s) (fun s' => for_each body l' s')
  end.

Definition expose (neighbor self : Boid) : M Boid :=
  if (status neighbor =? infected)%string then
    bind random (fun x =>
      if x <? infection_rate self
      then ret (with_state self (Some infected))
      else ret self)
  else ret self.

Definition exposure (self : Boid) (neighbors : list Boid) : M Boid :=
  if truthy neighbors then
    if (status self =? susceptible)%string
    then for_each expose neighbors self
    else ret self
  else ret self.

Definition resolution (self : Boid) : M Boid :=
  if (status self =? infected)%string then
    bind (if (infection_time self >? 10)%Z then
            bind random (fun x =>
              if x <? motality self
              then ret (with_state self (Some removed))
              else ret (with_state self (Some recovered)))
          else ret self)
         (fun self' =>
            ret (with_infection_time self' (infection_time self' + 1)%Z))
  else ret self.

Definition infection_recover (self : Boid) (neighbors : list Boid) : M Boid :=
  bind (exposure self neighbors) (fun self' => resolution self').

Section Space.

(** [self.model.space]; [torus_adj] is the adjustment that [move_agent]
    applies to a position before it stores it. *)
Variable get_heading : vec -> vec -> vec.
Variable get_distance : vec -> vec -> float.
Variable get_neighbors : vec -> float -> bool -> list Boid.
Variable torus_adj : vec -> vec.

Definition cohere (self : Boid) (neighbors : list Boid) : vec :=
  if truthy neighbors then
    vdivs (fold_left (fun acc neighbor => vadd acc (get_heading (pos self) (pos neighbor)))
                     neighbors vzero)
          (of_int (Z.of_nat (List.length neighbors)))
  else vzero.

Definition separate (self : Boid) (neighbors : list Boid) : vec :=
  let me := pos self in
  let them := map pos neighbors in
  fold_left (fun separation_vector other =>
               if get_distance me other <? separation self
               then vsub separation_vector (get_heading me other)
               else separation_vector)
            them vzero.

Definition match_heading (self : Boid) (neighbors : list Boid) : vec :=
  if truthy neighbors then
    vdivs (fold_left (fun acc neighbor => vadd acc (velocity neighbor)) neighbors vzero)
          (of_int (Z.of_nat (List.length neighbors)))
  else vzero.

(** The velocity before normalisation (lines 98-100). *)
Definition combined (self : Boid) (neighbors : list Boid) : vec :=
  vadd (velocity self)
       (vdivs (vadd (vadd (vscale (cohere self neighbors) (cohere_factor self))
                          (vscale (separate self neighbors) (separate_factor self)))
                    (vscale (match_heading self neighbors) (match_factor self)))
              (of_int 2)).

(** [space.move_agent(agent, pos)]: the agent's [pos] becomes the adjusted
    position. *)
Definition move_agent (agent : Boid) (p : vec) : Boid :=
  with_pos agent (torus_adj p).

(** [step] returns the agent as it is left, together with the position it
    handed to [move_agent]. *)
Definition step (self : Boid) : M (Boid * vec) :=
  let neighbors := get_neighbors (pos self) (vision self) false in
  let self := with_velocity self (combined self neighbors) in
  let self := with_velocity self (vdivs (velocity self) (norm (velocity self))) in
  let new_pos := vadd (pos self) (vscale (velocity self) (speed self)) in
  bind (infection_recover self neighbors) (fun self' =>
    ret (move_agent self' new_pos, new_pos)).

End Space.

(** A space without wrap-around, and sample agents. *)
Definition flat_heading (a b : vec) : vec := vsub b a.
Definition flat_distance (a b : vec) : float := norm (vsub a b).
Definition no_adjustment (p : vec) : vec := p.

Definition zeros : Rng := mkRng (fun _ => 0) 0.

(** An agent heading east from the origin that weighs only separation, and
    a neighbour 8 units straight ahead, inside its separation distance 10. *)
Definition pusher : Boid :=
  Boid_init 1 vzero 1 (mkvec 1 0) 10 10 susceptible 0%Z (Some 0) None (Some 0).

Definition ahead : Boid :=
  Boid_init 2 (mkvec 8 0) 1 (mkvec 1 0) 10 10 susceptible 0%Z None None None.


Definition slow : Boid :=
  Boid_init 4 vzero 1 (mkvec 0x1p-700 0) 10 10 susceptible 0%Z None None None.

(** An agent with the default weights and velocity (3, 4). *)
Definition cruiser : Boid :=
  Boid_init 5 vzero 1 (mkvec 3 4) 10 10 susceptible 0%Z None None None.

End F64.

(** ** Vocabulary of the properties *)

(** The number of neighbours whose health state reads infected. *)
Definition count_infected (neighbors : list Boid) : nat :=
  List.length (filter (fun n => (status n =? infected)%string) neighbors).

(** [b'] differs from [b] at most in the attribute [state]. *)
Definition same_but_state (b b' : Boid) : Prop := b' = with_state b (state b').


(** The terminal health states, and the order Susceptible, Infected, then
    Recovered or Removed. *)
Definition terminal (s : string) : Prop := s = recovered \/ s = removed.

Definition may_follow (s s' : string) : Prop :=
  s' = s \/
  (s = susceptible /\ s' = infected) \/
  (s = infected /\ terminal s').

(** Whether one of the [k] samples of the stream [f] from index [start] on
    is below [rate]. *)
Fixpoint hits (f : nat -> R) (rate : num) (start k : nat) : bool :=
  match k with
  | O => false
  | S k' => nltb (Fin (f start)) rate || hits f rate (S start) k'
  end.


(** The combined velocity that [F64.step] normalises: [F64.combined] at the
    neighbours that [step] asks the space for. *)
Definition f64_combined (get_heading : F64.vec -> F64.vec -> F64.vec)
    (get_distance : F64.vec -> F64.vec -> float)
    (get_neighbors : F64.vec -> float -> bool -> list F64.Boid)
    (self : F64.Boid) : F64.vec :=
  F64.combined get_heading get_distance self
    (get_neighbors (F64.pos self) (F64.vision self) false).

(** ** Sample data *)

(** An agent at the origin heading east, with a given health state,
    duration counter, mortality and infection probability. *)
Definition sample_boid (st : string) (t : Z) (mort rate : num) : Boid :=
  {| unique_id := 1;
     pos := vzero;
     speed := Fin 1;
     velocity := mkvec (Fin 1) (Fin 0);
     vision := Fin 10;
     separation := Fin 1;
     cohere_factor := Fin 0.025;
     separate_factor := Fin 0.25;
     match_factor := Fin 0.04;
     status := st;
     state := None;
     infection_time := t;
     motality := mort;
     infection_rate := rate |}.

(** A generator whose samples are all [x]. *)
Definition constant_rng (x : R) : Rng := mkRng (fun _ => x) 0.

(** The heading from [a] to [b] and their distance in the plane. *)
Definition flat_heading (a b : vec) : vec := vsub b a.
Definition flat_distance (a b : vec) : num := norm (vsub a b).

(** An agent heading east from the origin that weighs only separation, and
    a neighbour 8 units straight ahead, inside its separation distance 10. *)
Definition pusher : Boid :=
  Boid_init 1 vzero (Fin 1) (mkvec (Fin 1) (Fin 0)) (Fin 10) (Fin 10)
            susceptible 0%Z (Some (Fin 0)) None (Some (Fin 0)).

Definition ahead : Boid :=
  Boid_init 2 (mkvec (Fin 8) (Fin 0)) (Fin 1) (mkvec (Fin 1) (Fin 0)) (Fin 10) (Fin 10)
            susceptible 0%Z None None None.

(** A generator whose first sample is 0 and whose later samples are 0.9. *)
Definition low_then_high : Rng :=
  mkRng (fun n => match n with O => 0 | S _ => 0.9 end) 0.

(** * Properties *)

(** ** The infection transition *)

Lemma same_but_state_refl : forall b, same_but_state b b.
Proof. intros []; reflexivity. Qed.

Lemma same_but_state_set : forall b s, same_but_state b (with_state b s).
Proof. intros [] s; reflexivity. Qed.


Lemma same_but_state_status : forall b b', same_but_state b b' -> status b' = status b.
Proof. unfold same_but_state; intros b b' ->; reflexivity. Qed.

Lemma same_but_state_time : forall b b',
  same_but_state b b' -> infection_time b' = infection_time b.
Proof. unfold same_but_state; intros b b' ->; reflexivity. Qed.


Create HintDb boid.
#[local] Hint Resolve same_but_state_refl same_but_state_set : boid.

Arguments nltb : simpl never.

Ltac case_nltb :=
  match goal with
  | |- context [nltb ?a ?b] => destruct (nltb a b)
  end.

(** One pass of the loop body: the agent is kept or its [state] is set to
    infected, and one sample is consumed exactly for an infected neighbour. *)
Lemma expose_cases : forall neighbor self g,
  (fst (expose neighbor self g) = self \/
   fst (expose neighbor self g) = with_state self (Some infected)) /\
  samples (snd (expose neighbor self g)) = samples g /\
  cursor (snd (expose neighbor self g))
  = (cursor g + (if (status neighbor =? infected)%string then 1 else 0))%nat.
Proof.
  intros neighbor self g. unfold expose.
  destruct (status neighbor =? infected)%string.
  - unfold bind, random, ret; simpl.
    case_nltb; simpl; repeat split; auto; lia.
  - unfold ret; simpl; repeat split; auto; lia.
Qed.

Lemma with_state_twice : forall b s s', with_state (with_state b s) s' = with_state b s'.
Proof. intros [] s s'; reflexivity. Qed.

Lemma bind_run : forall {A B : Type} (m : M A) (k : A -> M B) (g : Rng),
  bind m k g = k (fst (m g)) (snd (m g)).
Proof. intros A B m k g. unfold bind. destruct (m g); reflexivity. Qed.

Lemma for_each_expose_cases : forall neighbors self g,
  (fst (for_each expose neighbors self g) = self \/
   fst (for_each expose neighbors self g) = with_state self (Some infected)) /\
  samples (snd (for_each expose neighbors self g)) = samples g /\
  cursor (snd (for_each expose neighbors self g))
  = (cursor g + count_infected neighbors)%nat.
Proof.
  induction neighbors as [|n ns IH]; intros self g.
  - unfold count_infected; simpl; repeat split; auto; lia.
  - cbn [for_each]. rewrite bind_run.
    destruct (expose_cases n self g) as (Hs & Hsam & Hcur).
    destruct (IH (fst (expose n self g)) (snd (expose n self g)))
      as (Hs' & Hsam' & Hcur').
    split; [|split].
    + destruct Hs as [Hs | Hs]; destruct Hs' as [Hs' | Hs'];
        rewrite Hs', ?Hs, ?with_state_twice; auto.
    + congruence.
    + rewrite Hcur', Hcur. unfold count_infected; simpl.
      destruct (status n =? infected)%string; simpl; lia.
Qed.

(** The first statement leaves everything but [state] alone. *)
Lemma exposure_cases : forall self neighbors g,
  fst (exposure self neighbors g) = self \/
  fst (exposure self neighbors g) = with_state self (Some infected).
Proof.
  intros self neighbors g. unfold exposure.
  destruct (truthy neighbors); [|left; reflexivity].
  destruct (status self =? susceptible)%string; [|left; reflexivity].
  apply for_each_expose_cases.
Qed.

Lemma exposure_same_but_state : forall self neighbors g,
  same_but_state self (fst (exposure self neighbors g)).
Proof.
  intros self neighbors g.
  destruct (exposure_cases self neighbors g) as [-> | ->]; auto with boid.
Qed.

(** An agent whose [status] is not susceptible passes the first statement
    untouched, and no sample is drawn. *)
Lemma exposure_not_susceptible : forall self neighbors g,
  status self <> susceptible -> exposure self neighbors g = (self, g).
Proof.
  intros self neighbors g H. unfold exposure.
  destruct (truthy neighbors); [|reflexivity].
  destruct (String.eqb_spec (status self) susceptible); [contradiction|reflexivity].
Qed.

(** An agent whose [status] is not infected passes the second statement
    untouched, and no sample is drawn. *)
Lemma resolution_not_infected : forall self g,
  status self <> infected -> resolution self g = (self, g).
Proof.
  intros self g H. unfold resolution.
  destruct (String.eqb_spec (status self) infected); [contradiction|reflexivity].
Qed.

Lemma resolution_status : forall self g, status (fst (resolution self g)) = status self.
Proof.
  intros self g. unfold resolution.
  destruct (status self =? infected)%string; [|reflexivity].
  unfold bind. destruct (infection_time self >? 10)%Z.
  - unfold random, ret; simpl. case_nltb; reflexivity.
  - reflexivity.
Qed.

(** What the second statement does to an agent whose [status] is infected. *)
Lemma resolution_infected : forall self g,
  status self = infected ->
  fst (resolution self g)
  = with_infection_time
      (if (infection_time self >? 10)%Z
       then with_state self
              (Some (if nltb (Fin (samples g (cursor g))) (motality self)
                     then removed else recovered))
       else self)
      (infection_time self + 1).
Proof.
  intros self g H. unfold resolution. rewrite H; simpl.
  unfold bind. destruct (infection_time self >? 10)%Z.
  - unfold random, ret; simpl. case_nltb; reflexivity.
  - reflexivity.
Qed.

Lemma infection_recover_unfold : forall self neighbors g,
  infection_recover self neighbors g
  = resolution (fst (exposure self neighbors g)) (snd (exposure self neighbors g)).
Proof.
  intros self neighbors g. unfold infection_recover, bind.
  destruct (exposure self neighbors g); reflexivity.
Qed.

Lemma infection_recover_status : forall self neighbors g,
  status (fst (infection_recover self neighbors g)) = status self.
Proof.
  intros self neighbors g. rewrite infection_recover_unfold, resolution_status.
  apply same_but_state_status, exposure_same_but_state.
Qed.

Lemma run_ticks_status : forall ticks self g,
  status (fst (run_ticks self ticks g)) = status self.
Proof.
  induction ticks as [|nb ticks IH]; intros self g; simpl.
  - reflexivity.
  - unfold bind. pose proof (infection_recover_status self nb g) as H.
    destruct (infection_recover self nb g) as [s1 g1]; simpl in H.
    rewrite IH. exact H.
Qed.

Lemma infection_recover_terminal : forall self neighbors g,
  status self <> susceptible -> status self <> infected ->
  infection_recover self neighbors g = (self, g).
Proof.
  intros self neighbors g Hs Hi.
  rewrite infection_recover_unfold, exposure_not_susceptible by assumption.
  simpl. apply resolution_not_infected; assumption.
Qed.

Lemma run_ticks_terminal : forall ticks self g,
  status self <> susceptible -> status self <> infected ->
  run_ticks self ticks g = (self, g).
Proof.
  induction ticks as [|nb ticks IH]; intros self g Hs Hi; simpl.
  - reflexivity.
  - unfold bind. rewrite infection_recover_terminal by assumption.
    apply IH; assumption.
Qed.

Lemma susceptible_not_infected : susceptible <> infected.
Proof. discriminate. Qed.

(** An agent whose [status] reads susceptible goes through the first
    statement only. *)
Lemma infection_recover_susceptible : forall self neighbors g,
  status self = susceptible ->
  infection_recover self neighbors g = exposure self neighbors g.
Proof.
  intros self neighbors g H. rewrite infection_recover_unfold.
  rewrite resolution_not_infected.
  - destruct (exposure self neighbors g); reflexivity.
  - rewrite (same_but_state_status _ _ (exposure_same_but_state self neighbors g)), H.
    exact susceptible_not_infected.
Qed.

Lemma nltb_true : forall x y, x < y -> nltb (Fin x) (Fin y) = true.
Proof. intros x y H. unfold nltb. destruct (Rlt_dec x y); [reflexivity|contradiction]. Qed.

Lemma nltb_false : forall x y, ~ x < y -> nltb (Fin x) (Fin y) = false.
Proof. intros x y H. unfold nltb. destruct (Rlt_dec x y); [contradiction|reflexivity]. Qed.

(** The first statement on a susceptible agent with a single infected
    neighbour and a sample below the infection probability. *)
Lemma exposure_single_hit : forall self neighbor g,
  status self = susceptible ->
  status neighbor = infected ->
  nltb (Fin (samples g (cursor g))) (infection_rate self) = true ->
  exposure self [neighbor] g
  = (with_state self (Some infected), mkRng (samples g) (S (cursor g))).
Proof.
  intros self neighbor g Hs Hn Hx.
  unfold exposure, expose; cbn [truthy for_each].
  rewrite Hs, Hn, String.eqb_refl, String.eqb_refl.
  rewrite !bind_run. unfold random; cbn [fst snd]. rewrite Hx. reflexivity.
Qed.

(** C1 (the program departs from the claim).  A susceptible agent with one
    infected neighbour and a sample below the infection probability: the
    transition records infected in the attribute [state], while the health
    state [status], the one that is read, still says susceptible; the duration
    counter is unchanged. *)
Theorem exposure_writes_state_not_status : forall self neighbor g,
  status self = susceptible ->
  status neighbor = infected ->
  nltb (Fin (samples g (cursor g))) (infection_rate self) = true ->
  status (fst (infection_recover self [neighbor] g)) = susceptible /\
  status (fst (infection_recover self [neighbor] g)) <> infected /\
  state (fst (infection_recover self [neighbor] g)) = Some infected /\
  infection_time (fst (infection_recover self [neighbor] g)) = infection_time self.
Proof.
  intros self neighbor g Hs Hn Hx.
  rewrite infection_recover_susceptible by assumption.
  rewrite exposure_single_hit by assumption.
  cbn [fst with_state status state infection_time].
  rewrite Hs. repeat split. exact susceptible_not_infected.
Qed.

Lemma exposure_writes_state_not_status_witness :
  status (fst (infection_recover (sample_boid susceptible 0 (Fin 0.1) (Fin 1))
                                 [sample_boid infected 3 (Fin 0.1) (Fin 1)]
                                 (constant_rng 0))) = susceptible /\
  status (fst (infection_recover (sample_boid susceptible 0 (Fin 0.1) (Fin 1))
                                 [sample_boid infected 3 (Fin 0.1) (Fin 1)]
                                 (constant_rng 0))) <> infected /\
  state (fst (infection_recover (sample_boid susceptible 0 (Fin 0.1) (Fin 1))
                                [sample_boid infected 3 (Fin 0.1) (Fin 1)]
                                (constant_rng 0))) = Some infected /\
  infection_time (fst (infection_recover (sample_boid susceptible 0 (Fin 0.1) (Fin 1))
                                         [sample_boid infected 3 (Fin 0.1) (Fin 1)]
                                         (constant_rng 0))) = 0%Z.
Proof.
  apply (exposure_writes_state_not_status
           (sample_boid susceptible 0 (Fin 0.1) (Fin 1))
           (sample_boid infected 3 (Fin 0.1) (Fin 1))
           (constant_rng 0)).
  - reflexivity.
  - reflexivity.
  - apply nltb_true. simpl. lra.
Defined.

(** The transition assigns nothing but [state] and [infection_time]. *)
Lemma infection_recover_frame : forall self neighbors g,
  fst (infection_recover self neighbors g)
  = with_infection_time
      (with_state self (state (fst (infection_recover self neighbors g))))
      (infection_time (fst (infection_recover self neighbors g))).
Proof.
  intros self neighbors g. rewrite infection_recover_unfold.
  pose proof (exposure_same_but_state self neighbors g) as He.
  set (s1 := fst (exposure self neighbors g)) in *.
  set (g1 := snd (exposure self neighbors g)).
  red in He. unfold resolution.
  destruct (status s1 =? infected)%string.
  - rewrite bind_run. destruct (infection_time s1 >? 10)%Z.
    + rewrite bind_run. unfold random, ret; cbn [fst snd].
      case_nltb; rewrite He; destruct self; reflexivity.
    + unfold ret; cbn [fst snd]. rewrite He; destruct self; reflexivity.
  - unfold ret; cbn [fst]. rewrite He; destruct self; reflexivity.
Qed.

Lemma infection_recover_velocity : forall self neighbors g,
  velocity (fst (infection_recover self neighbors g)) = velocity self.
Proof. intros. rewrite infection_recover_frame. reflexivity. Qed.

(** C2.  Whatever the agent, the neighbours and the samples, the transition
    assigns only the attributes [state] and [infection_time]: [status], the
    attribute that the transition and the other agents read, keeps its value,
    and so does every other attribute. *)
Theorem infection_recover_leaves_status : forall self neighbors g,
  status (fst (infection_recover self neighbors g)) = status self /\
  fst (infection_recover self neighbors g)
  = with_infection_time
      (with_state self (state (fst (infection_recover self neighbors g))))
      (infection_time (fst (infection_recover self neighbors g))).
Proof.
  intros self neighbors g. split.
  - apply infection_recover_status.
  - apply infection_recover_frame.
Qed.

(** The second statement on an agent whose [status] is infected, with the
    generator it leaves. *)
Lemma resolution_infected_run : forall self g,
  status self = infected ->
  resolution self g
  = if (infection_time self >? 10)%Z
    then (with_infection_time
            (with_state self
               (Some (if nltb (Fin (samples g (cursor g))) (motality self)
                      then removed else recovered)))
            (infection_time self + 1),
          mkRng (samples g) (S (cursor g)))
    else (with_infection_time self (infection_time self + 1), g).
Proof.
  intros self g H. unfold resolution. rewrite H, String.eqb_refl.
  rewrite bind_run. destruct (infection_time self >? 10)%Z.
  - rewrite bind_run. unfold random, ret; cbn [fst snd].
    case_nltb; reflexivity.
  - reflexivity.
Qed.

Lemma infected_not_susceptible : infected <> susceptible.
Proof. discriminate. Qed.

(** C3 (the program departs from the claim).  For an agent whose [status]
    is infected the transition adds exactly 1 to the duration counter.  When
    the counter it started the tick with is above 10, one sample is drawn and
    removed or recovered is recorded in the attribute [state]; the health
    state [status] itself stays infected, at every duration. *)
Theorem resolution_writes_state_not_status : forall self neighbors g,
  status self = infected ->
  status (fst (infection_recover self neighbors g)) = infected /\
  infection_time (fst (infection_recover self neighbors g))
  = (infection_time self + 1)%Z /\
  ((infection_time self > 10)%Z ->
   state (fst (infection_recover self neighbors g))
   = Some (if nltb (Fin (samples g (cursor g))) (motality self)
           then removed else recovered) /\
   cursor (snd (infection_recover self neighbors g)) = S (cursor g)) /\
  ((infection_time self <= 10)%Z ->
   state (fst (infection_recover self neighbors g)) = state self /\
   snd (infection_recover self neighbors g) = g).
Proof.
  intros self neighbors g H.
  rewrite infection_recover_unfold, exposure_not_susceptible
    by (rewrite H; exact infected_not_susceptible).
  cbn [fst snd]. rewrite resolution_infected_run by assumption.
  destruct (Z.gtb_spec (infection_time self) 10) as [Hgt | Hle].
  - cbn [fst snd]. repeat split; try assumption; lia.
  - cbn [fst snd]. repeat split; try assumption; lia.
Qed.

Lemma resolution_writes_state_not_status_witness :
  let r := infection_recover (sample_boid infected 11 (Fin 0) (Fin 0.5)) []
                             (constant_rng 0) in
  status (fst r) = infected /\
  infection_time (fst r) = 12%Z /\
  state (fst r) = Some recovered.
Proof.
  destruct (resolution_writes_state_not_status
              (sample_boid infected 11 (Fin 0) (Fin 0.5)) [] (constant_rng 0)
              eq_refl) as (Hst & Ht & Hgt & _).
  destruct (Hgt ltac:(simpl; lia)) as (Hs & _).
  cbv zeta. split; [exact Hst|]. split; [exact Ht|].
  rewrite Hs. simpl. rewrite nltb_false by lra. reflexivity.
Defined.

Lemma terminal_not_susceptible : forall s, terminal s -> s <> susceptible.
Proof. intros s [-> | ->]; discriminate. Qed.

Lemma terminal_not_infected : forall s, terminal s -> s <> infected.
Proof. intros s [-> | ->]; discriminate. Qed.

(** The attribute [state] is not a health state with terminal values: for
    an agent that stays infected past the threshold it is drawn again at every
    tick, here removed after the first tick and recovered after the second. *)
Example state_is_drawn_again_each_tick :
  state (fst (run_ticks (sample_boid infected 11 (Fin 0.5) (Fin 0.5)) [[]]
                        low_then_high)) = Some removed /\
  state (fst (run_ticks (sample_boid infected 11 (Fin 0.5) (Fin 0.5)) [[]; []]
                        low_then_high)) = Some recovered /\
  status (fst (run_ticks (sample_boid infected 11 (Fin 0.5) (Fin 0.5)) [[]; []]
                         low_then_high)) = infected.
Proof.
  assert (Hlow : nltb (Fin 0) (Fin 0.5) = true) by (apply nltb_true; lra).
  assert (Hhigh : nltb (Fin 0.9) (Fin 0.5) = false) by (apply nltb_false; lra).
  unfold run_ticks, infection_recover, exposure, resolution, bind, ret, random.
  cbn -[nltb]. rewrite Hlow. cbn -[nltb]. rewrite Hhigh. cbn -[nltb].
  repeat split.
Qed.

(** C6.  An agent whose health state is recovered or removed comes out of
    any sequence of ticks exactly as it went in, whatever the neighbour sets
    and the samples, and no sample is drawn for it.  For every agent the
    health state after any sequence of ticks follows the one before in the
    order Susceptible, Infected, Recovered or Removed: an agent that is not
    susceptible does not become susceptible, and one that is neither
    susceptible nor infected becomes neither. *)
Theorem terminal_states_are_final : forall self ticks g,
  (terminal (status self) -> run_ticks self ticks g = (self, g)) /\
  may_follow (status self) (status (fst (run_ticks self ticks g))) /\
  (status self <> susceptible ->
   status (fst (run_ticks self ticks g)) <> susceptible) /\
  (status self <> susceptible -> status self <> infected ->
   status (fst (run_ticks self ticks g)) <> susceptible /\
   status (fst (run_ticks self ticks g)) <> infected).
Proof.
  intros self ticks g. rewrite run_ticks_status. repeat split; auto.
  - intros H. apply run_ticks_terminal.
    + apply terminal_not_susceptible; assumption.
    + apply terminal_not_infected; assumption.
  - left; reflexivity.
Qed.

Lemma terminal_states_are_final_witness :
  run_ticks (sample_boid removed 12 (Fin 0.1) (Fin 0.5))
            [[sample_boid infected 3 (Fin 0.1) (Fin 0.5)]; [];
             [sample_boid infected 4 (Fin 0.1) (Fin 0.5);
              sample_boid susceptible 0 (Fin 0.1) (Fin 0.5)]]
            (constant_rng 0)
  = (sample_boid removed 12 (Fin 0.1) (Fin 0.5), constant_rng 0).
Proof.
  apply (terminal_states_are_final
           (sample_boid removed 12 (Fin 0.1) (Fin 0.5))
           [[sample_boid infected 3 (Fin 0.1) (Fin 0.5)]; [];
            [sample_boid infected 4 (Fin 0.1) (Fin 0.5);
             sample_boid susceptible 0 (Fin 0.1) (Fin 0.5)]]
           (constant_rng 0)).
  right; reflexivity.
Defined.

(** C7.  An agent that is susceptible at the start of a tick goes through
    the exposure of the first statement only: the transition is that
    statement alone, so the resolution check is not run for it in that tick.
    Its duration counter is not incremented, the samples drawn are exactly one
    per infected neighbour (none for a resolution), and [state] is left as it
    was or set to infected, never to recovered or removed. *)
Theorem newly_infected_is_not_resolved : forall self neighbors g,
  status self = susceptible ->
  infection_recover self neighbors g = exposure self neighbors g /\
  infection_time (fst (infection_recover self neighbors g)) = infection_time self /\
  (fst (infection_recover self neighbors g) = self \/
   fst (infection_recover self neighbors g) = with_state self (Some infected)) /\
  cursor (snd (infection_recover self neighbors g))
  = (cursor g + (if truthy neighbors then count_infected neighbors else 0))%nat.
Proof.
  intros self neighbors g H.
  rewrite infection_recover_susceptible by assumption.
  split; [reflexivity|]. split; [|split].
  - apply same_but_state_time, exposure_same_but_state.
  - apply exposure_cases.
  - unfold exposure. destruct (truthy neighbors).
    + rewrite H, String.eqb_refl. apply for_each_expose_cases.
    + unfold ret; cbn [snd]. lia.
Qed.

Lemma newly_infected_is_not_resolved_witness :
  let self := sample_boid susceptible 11 (Fin 1) (Fin 1) in
  let neighbors := [sample_boid infected 3 (Fin 0.1) (Fin 0.5)] in
  let r := infection_recover self neighbors (constant_rng 0) in
  r = exposure self neighbors (constant_rng 0) /\
  infection_time (fst r) = 11%Z /\
  (fst r = self \/ fst r = with_state self (Some infected)) /\
  cursor (snd r) = 1%nat.
Proof.
  exact (newly_infected_is_not_resolved
           (sample_boid susceptible 11 (Fin 1) (Fin 1))
           [sample_boid infected 3 (Fin 0.1) (Fin 0.5)]
           (constant_rng 0) eq_refl).
Defined.

(** C10.  Whatever its arguments, the constructor sets the infection
    probability to 0.5, the mortality probability to 0.1 and the duration
    counter to 0; the argument [infection_time], of any type and value, has no
    effect on the agent built. *)
Theorem init_fixes_rates_and_counter :
  forall (T : Type) uid p sp v vis sep st (it : T) c s m,
  infection_rate (Boid_init uid p sp v vis sep st it c s m) = Fin 0.5 /\
  motality (Boid_init uid p sp v vis sep st it c s m) = Fin 0.1 /\
  infection_time (Boid_init uid p sp v vis sep st it c s m) = 0%Z /\
  forall (T' : Type) (it' : T'),
    Boid_init uid p sp v vis sep st it' c s m
    = Boid_init uid p sp v vis sep st it c s m.
Proof. intros; repeat split. Qed.

(** ** Arithmetic of [num] and of vectors *)

Ltac num_crush :=
  repeat match goal with
         | v : vec |- _ => destruct v
         | a : num |- _ => destruct a
         end;
  unfold vadd, vsub, vneg, vzero; simpl;
  try reflexivity;
  try (f_equal; first [reflexivity | f_equal; lra]).


Lemma vadd_assoc : forall u v w, vadd u (vadd v w) = vadd (vadd u v) w.
Proof. intros; num_crush. Qed.

Lemma vadd_zero_l : forall u, vadd vzero u = u.
Proof. intros; num_crush. Qed.

Lemma vadd_zero_r : forall u, vadd u vzero = u.
Proof. intros; num_crush. Qed.





(** A loop that accumulates [f x] over a list adds the sum of the [f x]. *)
Lemma fold_left_vadd : forall {A : Type} (f : A -> vec) (l : list A) (acc : vec),
  fold_left (fun a x => vadd a (f x)) l acc = vadd acc (vsum (map f l)).
Proof.
  intros A f l. induction l as [|x l IH]; intros acc; simpl.
  - symmetry; apply vadd_zero_r.
  - rewrite IH. symmetry; apply vadd_assoc.
Qed.


Lemma nltb_ge_false : forall d s, s <= d -> nltb (Fin d) (Fin s) = false.
Proof. intros d s H. apply nltb_false. lra. Qed.

Section SteeringProperties.

Variable get_heading : vec -> vec -> vec.
Variable get_distance : vec -> vec -> num.




End SteeringProperties.

(** ** Normalisation and the motion update *)

Arguments ndiv : simpl never.
Arguments nsqrt : simpl never.


Lemma nsqrt_fin : forall x, 0 <= x -> nsqrt (Fin x) = Fin (sqrt x).
Proof.
  intros x H. unfold nsqrt. destruct (Rlt_dec x 0); [lra|reflexivity].
Qed.

Lemma sum_squares_nonneg : forall x y, 0 <= x * x + y * y.
Proof. intros; nra. Qed.

Lemma norm_fin : forall x y,
  norm (mkvec (Fin x) (Fin y)) = Fin (sqrt (x * x + y * y)).
Proof.
  intros x y. unfold norm; simpl. apply nsqrt_fin, sum_squares_nonneg.
Qed.

Lemma not_vfinite_nan : ~ vfinite (mkvec NaN NaN).
Proof. intros [H _]; exact H. Qed.

Section MotionProperties.

Variable get_heading : vec -> vec -> vec.
Variable get_distance : vec -> vec -> num.
Variable get_neighbors : vec -> num -> bool -> list Boid.


Lemma step_velocity : forall self g,
  velocity (fst (fst (step get_heading get_distance get_neighbors self g)))
  = vdivs (combined get_heading get_distance self
             (get_neighbors (pos self) (vision self) false))
          (norm (combined get_heading get_distance self
                   (get_neighbors (pos self) (vision self) false))).
Proof.
  intros self g. unfold step. rewrite bind_run. unfold ret; cbn [fst snd].
  rewrite infection_recover_velocity. reflexivity.
Qed.

Lemma step_new_pos : forall self g,
  snd (fst (step get_heading get_distance get_neighbors self g))
  = vadd (pos self)
         (vscale (velocity (fst (fst (step get_heading get_distance
                                           get_neighbors self g))))
                 (speed self)).
Proof.
  intros self g. rewrite step_velocity.
  unfold step. rewrite bind_run. unfold ret; cbn [fst snd]. reflexivity.
Qed.

End MotionProperties.

(** ** Closed instances in a space without wrap-around *)

(** The test of [separate] is strict: the neighbour 8 units ahead is ignored
    by an agent whose separation distance is exactly 8. *)
Example separate_at_threshold :
  separate flat_heading flat_distance
           (Boid_init 1 vzero (Fin 1) (mkvec (Fin 1) (Fin 0)) (Fin 10) (Fin 8)
                      susceptible 0%Z None None None)
           [ahead]
  = vzero.
Proof.
  unfold separate; cbn [map fold_left pos separation Boid_init ahead].
  unfold flat_distance, vsub, vzero; cbn [vx vy nsub]. rewrite norm_fin.
  rewrite nltb_false; [reflexivity|].
  replace ((0 - 8) * (0 - 8) + (0 - 0) * (0 - 0)) with (8 * 8) by lra.
  rewrite sqrt_square by lra. lra.
Qed.

(** * Further properties of the code *)

(** ** The exposure loop *)

Lemma rng_advance_zero : forall g, mkRng (samples g) (cursor g + 0) = g.
Proof. intros [f c]; cbn [samples cursor]. rewrite Nat.add_0_r. reflexivity. Qed.

Lemma count_infected_cons : forall n ns,
  count_infected (n :: ns)
  = ((if (status n =? infected)%string then 1 else 0) + count_infected ns)%nat.
Proof.
  intros n ns. unfold count_infected; cbn [filter].
  destruct (status n =? infected)%string; reflexivity.
Qed.

Lemma expose_run : forall neighbor self g,
  expose neighbor self g
  = if (status neighbor =? infected)%string
    then (if nltb (Fin (samples g (cursor g))) (infection_rate self)
          then with_state self (Some infected) else self,
          mkRng (samples g) (S (cursor g)))
    else (self, g).
Proof.
  intros neighbor self g. unfold expose.
  destruct (status neighbor =? infected)%string; [|reflexivity].
  rewrite bind_run. unfold random; cbn [fst snd]. case_nltb; reflexivity.
Qed.

(** The loop draws one sample for each infected neighbour, whether or not an
    earlier one was a hit, and sets [state] when one of them is. *)
Lemma for_each_expose_run : forall neighbors self g,
  for_each expose neighbors self g
  = (if hits (samples g) (infection_rate self) (cursor g) (count_infected neighbors)
     then with_state self (Some infected) else self,
     mkRng (samples g) (cursor g + count_infected neighbors)).
Proof.
  induction neighbors as [|n ns IH]; intros self g.
  - cbn [for_each count_infected filter List.length hits]. unfold ret.
    rewrite rng_advance_zero. reflexivity.
  - cbn [for_each]. rewrite bind_run, expose_run, count_infected_cons.
    destruct (status n =? infected)%string; cbn [fst snd plus hits].
    + destruct (nltb (Fin (samples g (cursor g))) (infection_rate self));
        rewrite IH; cbn [samples cursor infection_rate with_state orb];
        rewrite Nat.add_succ_r.
      * rewrite with_state_twice. destruct (hits _ _ _ _); reflexivity.
      * reflexivity.
    + apply IH.
Qed.

Lemma for_susceptible : forall self neighbors g,
  status self = susceptible ->
  infection_recover self neighbors g
  = (if hits (samples g) (infection_rate self) (cursor g) (count_infected neighbors)
     then with_state self (Some infected) else self,
     mkRng (samples g) (cursor g + count_infected neighbors)).
Proof.
  intros self neighbors g H.
  rewrite infection_recover_susceptible by assumption. unfold exposure.
  destruct neighbors as [|n ns].
  - cbn [truthy count_infected filter List.length hits]. unfold ret.
    rewrite rng_advance_zero. reflexivity.
  - cbn [truthy]. rewrite H, String.eqb_refl. apply for_each_expose_run.
Qed.

(** X1.  For a susceptible agent the transition draws exactly one sample
    per infected neighbour, with no early exit after a hit; [state] is set to
    infected exactly when one of those samples is below the infection
    probability, and nothing else changes.  With no infected neighbour the
    agent and the generator are untouched. *)
Theorem exposure_draws_once_per_infected_neighbor : forall self neighbors g,
  status self = susceptible ->
  infection_recover self neighbors g
  = (if hits (samples g) (infection_rate self) (cursor g) (count_infected neighbors)
     then with_state self (Some infected) else self,
     mkRng (samples g) (cursor g + count_infected neighbors)) /\
  (count_infected neighbors = 0%nat -> infection_recover self neighbors g = (self, g)).
Proof.
  intros self neighbors g H. split; [apply for_susceptible; assumption|].
  intros H0. rewrite for_susceptible, H0 by assumption.
  cbn [hits]. rewrite rng_advance_zero. reflexivity.
Qed.

Lemma exposure_draws_once_per_infected_neighbor_witness :
  snd (infection_recover (sample_boid susceptible 0 (Fin 0.1) (Fin 0.5))
         [sample_boid infected 3 (Fin 0.1) (Fin 0.5);
          sample_boid recovered 12 (Fin 0.1) (Fin 0.5);
          sample_boid infected 1 (Fin 0.1) (Fin 0.5)]
         low_then_high)
  = mkRng (samples low_then_high) 2.
Proof.
  destruct (exposure_draws_once_per_infected_neighbor
              (sample_boid susceptible 0 (Fin 0.1) (Fin 0.5))
              [sample_boid infected 3 (Fin 0.1) (Fin 0.5);
               sample_boid recovered 12 (Fin 0.1) (Fin 0.5);
               sample_boid infected 1 (Fin 0.1) (Fin 0.5)]
              low_then_high eq_refl) as [Hrun _].
  rewrite Hrun. reflexivity.
Defined.

Lemma Permutation_filter_length : forall {A : Type} (p : A -> bool) (l l' : list A),
  Permutation l l' -> List.length (filter p l) = List.length (filter p l').
Proof.
  intros A p l l' H. induction H as [|x l l' _ IH|x y l|l l' l'' _ IH1 _ IH2].
  - reflexivity.
  - cbn [filter]. destruct (p x); cbn [List.length]; congruence.
  - cbn [filter]. destruct (p x), (p y); reflexivity.
  - congruence.
Qed.

(** An agent whose [status] is not susceptible never looks at its
    neighbours. *)
Lemma infection_recover_not_susceptible : forall self neighbors g,
  status self <> susceptible ->
  infection_recover self neighbors g = resolution self g.
Proof.
  intros self neighbors g H.
  rewrite infection_recover_unfold, exposure_not_susceptible by assumption.
  reflexivity.
Qed.

(** X2.  The transition does not depend on the order in which the space
    returns the neighbours: two neighbour lists that are permutations of one
    another give the same agent and leave the generator in the same state. *)
Theorem infection_recover_ignores_neighbor_order : forall self neighbors neighbors' g,
  Permutation neighbors neighbors' ->
  infection_recover self neighbors g = infection_recover self neighbors' g.
Proof.
  intros self neighbors neighbors' g H.
  destruct (string_dec (status self) susceptible) as [Hs | Hs].
  - rewrite (for_susceptible self neighbors g Hs),
            (for_susceptible self neighbors' g Hs).
    unfold count_infected.
    rewrite (Permutation_filter_length _ _ _ H). reflexivity.
  - rewrite !infection_recover_not_susceptible by assumption. reflexivity.
Qed.

Lemma infection_recover_ignores_neighbor_order_witness :
  infection_recover (sample_boid susceptible 0 (Fin 0.1) (Fin 0.5))
                    [sample_boid infected 3 (Fin 0.1) (Fin 0.5);
                     sample_boid recovered 12 (Fin 0.1) (Fin 0.5)]
                    low_then_high
  = infection_recover (sample_boid susceptible 0 (Fin 0.1) (Fin 0.5))
                      [sample_boid recovered 12 (Fin 0.1) (Fin 0.5);
                       sample_boid infected 3 (Fin 0.1) (Fin 0.5)]
                      low_then_high.
Proof.
  apply (infection_recover_ignores_neighbor_order
           (sample_boid susceptible 0 (Fin 0.1) (Fin 0.5))).
  apply perm_swap.
Defined.

(** X3.  An agent whose [status] is not susceptible never looks at its
    neighbours and draws no sample for them: the transition is the resolution
    statement alone, whatever the neighbour list.  When the status is not
    infected either, whatever the string, the agent and the generator are
    returned untouched. *)
Theorem infection_recover_reads_neighbors_only_when_susceptible :
  forall self neighbors g,
  status self <> susceptible ->
  infection_recover self neighbors g = infection_recover self [] g /\
  infection_recover self neighbors g = resolution self g /\
  (status self <> infected -> infection_recover self neighbors g = (self, g)).
Proof.
  intros self neighbors g H.
  rewrite !infection_recover_not_susceptible by assumption.
  repeat split. intros Hi. apply resolution_not_infected; assumption.
Qed.

Lemma infection_recover_reads_neighbors_only_when_susceptible_witness :
  infection_recover (sample_boid "Infected" 11 (Fin 1) (Fin 1))
                    [sample_boid infected 3 (Fin 0.1) (Fin 0.5)]
                    (constant_rng 0)
  = (sample_boid "Infected" 11 (Fin 1) (Fin 1), constant_rng 0).
Proof.
  apply (infection_recover_reads_neighbors_only_when_susceptible
           (sample_boid "Infected" 11 (Fin 1) (Fin 1))
           [sample_boid infected 3 (Fin 0.1) (Fin 0.5)]
           (constant_rng 0)).
  - discriminate.
  - discriminate.
Defined.

(** ** The duration counter over a run *)

Lemma infection_recover_time : forall self neighbors g,
  infection_time (fst (infection_recover self neighbors g))
  = if (status self =? infected)%string
    then (infection_time self + 1)%Z
    else infection_time self.
Proof.
  intros self neighbors g.
  destruct (String.eqb_spec (status self) infected) as [Hi | Hi].
  - rewrite infection_recover_not_susceptible
      by (rewrite Hi; exact infected_not_susceptible).
    rewrite resolution_infected_run by assumption.
    destruct (infection_time self >? 10)%Z; reflexivity.
  - rewrite infection_recover_unfold, resolution_not_infected.
    + apply same_but_state_time, exposure_same_but_state.
    + rewrite (same_but_state_status _ _ (exposure_same_but_state self neighbors g)).
      assumption.
Qed.

(** X4.  Over any run of ticks the duration counter of an agent whose
    [status] is infected grows by exactly the number of ticks, without bound
    and whatever the samples; the counter of any other agent keeps its
    value. *)
Theorem infection_time_counts_ticks : forall ticks self g,
  infection_time (fst (run_ticks self ticks g))
  = if (status self =? infected)%string
    then (infection_time self + Z.of_nat (List.length ticks))%Z
    else infection_time self.
Proof.
  induction ticks as [|nb ticks IH]; intros self g.
  - cbn [run_ticks List.length]. unfold ret; cbn [fst].
    destruct (status self =? infected)%string; lia.
  - cbn [run_ticks]. rewrite bind_run, IH, infection_recover_status,
      infection_recover_time.
    destruct (status self =? infected)%string; [|reflexivity].
    cbn [List.length]. lia.
Qed.

(** ** Motion and infection within one step *)

(** The transition neither reads nor writes the velocity. *)
Lemma infection_recover_with_velocity : forall self v neighbors g,
  infection_recover (with_velocity self v) neighbors g
  = (with_velocity (fst (infection_recover self neighbors g)) v,
     snd (infection_recover self neighbors g)).
Proof.
  intros self v neighbors g.
  destruct (string_dec (status self) susceptible) as [Hs | Hs].
  - rewrite (for_susceptible (with_velocity self v)) by exact Hs.
    rewrite (for_susceptible self) by exact Hs.
    cbn [fst snd infection_rate with_velocity].
    destruct (hits _ _ _ _); reflexivity.
  - rewrite (infection_recover_not_susceptible (with_velocity self v)) by exact Hs.
    rewrite (infection_recover_not_susceptible self) by exact Hs.
    destruct (string_dec (status self) infected) as [Hi | Hi].
    + rewrite (resolution_infected_run (with_velocity self v)) by exact Hi.
      rewrite (resolution_infected_run self) by exact Hi.
      cbn [infection_time motality with_velocity].
      destruct (infection_time self >? 10)%Z; [|reflexivity].
      cbn [fst snd]. case_nltb; reflexivity.
    + rewrite (resolution_not_infected (with_velocity self v)) by exact Hi.
      rewrite (resolution_not_infected self) by exact Hi. reflexivity.
Qed.

(** ** An agent without neighbours *)



Section MotionFurther.

Variable get_heading : vec -> vec -> vec.
Variable get_distance : vec -> vec -> num.
Variable get_neighbors : vec -> num -> bool -> list Boid.


End MotionFurther.


(** ** Values that are not numbers *)

Lemma nadd_nan_r : forall a, nadd a NaN = NaN.
Proof. intros []; reflexivity. Qed.

Lemma ndiv_nan_l : forall a, ndiv NaN a = NaN.
Proof. reflexivity. Qed.

Lemma ndiv_nan_r : forall a, ndiv a NaN = NaN.
Proof. intros []; reflexivity. Qed.

Lemma not_vfinite_cases : forall v, ~ vfinite v -> vx v = NaN \/ vy v = NaN.
Proof.
  intros [[x|] [y|]] H; cbn [vx vy]; auto.
  exfalso; apply H; split; exact I.
Qed.

Lemma vsum_nan_x : forall l v, In v l -> vx v = NaN -> vx (vsum l) = NaN.
Proof.
  induction l as [|u l IH]; intros v Hin Hv; [contradiction|].
  unfold vsum in *; cbn [fold_right vadd vx]. destruct Hin as [-> | Hin].
  - rewrite Hv. reflexivity.
  - rewrite (IH v Hin Hv). apply nadd_nan_r.
Qed.

Lemma vsum_nan_y : forall l v, In v l -> vy v = NaN -> vy (vsum l) = NaN.
Proof.
  induction l as [|u l IH]; intros v Hin Hv; [contradiction|].
  unfold vsum in *; cbn [fold_right vadd vy]. destruct Hin as [-> | Hin].
  - rewrite Hv. reflexivity.
  - rewrite (IH v Hin Hv). apply nadd_nan_r.
Qed.

(** A vector with a component that is not a number has no norm, and dividing
    it by its norm loses both components. *)
Lemma normalise_not_finite : forall v,
  ~ vfinite v -> vdivs v (norm v) = mkvec NaN NaN.
Proof.
  intros v H. assert (Hn : norm v = NaN).
  { unfold norm. destruct (not_vfinite_cases v H) as [E | E]; rewrite E.
    - reflexivity.
    - cbn [nmul]. rewrite nadd_nan_r. reflexivity. }
  rewrite Hn. unfold vdivs. rewrite !ndiv_nan_r. reflexivity.
Qed.

Lemma match_heading_not_finite : forall self neighbors n,
  In n neighbors -> ~ vfinite (velocity n) ->
  ~ vfinite (match_heading self neighbors).
Proof.
  intros self neighbors n Hin Hn [Hx Hy]. unfold match_heading in Hx, Hy.
  assert (Ht : truthy neighbors = true) by (destruct neighbors; [contradiction|reflexivity]).
  rewrite Ht, (fold_left_vadd velocity), vadd_zero_l in Hx, Hy.
  unfold vdivs in Hx, Hy; cbn [vx vy] in Hx, Hy.
  destruct (not_vfinite_cases _ Hn) as [E | E].
  - rewrite (vsum_nan_x _ (velocity n)) in Hx; [exact Hx| |exact E].
    apply in_map; assumption.
  - rewrite (vsum_nan_y _ (velocity n)) in Hy; [exact Hy| |exact E].
    apply in_map; assumption.
Qed.

Lemma vfinite_vadd_inv : forall u v, vfinite (vadd u v) -> vfinite u /\ vfinite v.
Proof.
  intros [[a|] [b|]] [[c|] [d|]] [H1 H2]; cbn in H1, H2; try contradiction.
  repeat split.
Qed.

Lemma vfinite_vscale_inv : forall u k, vfinite (vscale u k) -> vfinite u.
Proof.
  intros [[a|] [b|]] [k|] [H1 H2]; cbn in H1, H2; try contradiction.
  repeat split.
Qed.

Lemma vfinite_vdivs_inv : forall u k, vfinite (vdivs u k) -> vfinite u.
Proof.
  intros [[a|] [b|]] k [H1 H2]; cbn [vdivs vx vy] in H1, H2;
    rewrite ?ndiv_nan_l in *; try contradiction.
  repeat split.
Qed.

Section NotANumber.

Variable get_heading : vec -> vec -> vec.
Variable get_distance : vec -> vec -> num.
Variable get_neighbors : vec -> num -> bool -> list Boid.

(** X9.  A velocity that is not a number is never repaired and spreads: if
    the agent's own velocity, or the velocity of one of the neighbours that
    the space returns, has a component that is not a number, then after
    [step] both components of the agent's velocity and both coordinates of
    the position handed to the space are not numbers, whatever the weights. *)
Theorem nan_velocity_spreads : forall self g,
  (~ vfinite (velocity self) \/
   exists n, In n (get_neighbors (pos self) (vision self) false) /\
             ~ vfinite (velocity n)) ->
  velocity (fst (fst (step get_heading get_distance get_neighbors self g)))
  = mkvec NaN NaN /\
  snd (fst (step get_heading get_distance get_neighbors self g)) = mkvec NaN NaN.
Proof.
  intros self g H.
  assert (Hc : ~ vfinite (combined get_heading get_distance self
                            (get_neighbors (pos self) (vision self) false))).
  { intros Hfin. unfold combined in Hfin.
    apply vfinite_vadd_inv in Hfin as [Hv Hd].
    destruct H as [H | (n & Hin & Hn)]; [exact (H Hv)|].
    apply vfinite_vdivs_inv, vfinite_vadd_inv in Hd as [_ Hm].
    apply vfinite_vscale_inv in Hm.
    exact (match_heading_not_finite self _ n Hin Hn Hm). }
  rewrite step_new_pos, step_velocity, (normalise_not_finite _ Hc).
  split; [reflexivity|].
  unfold vadd, vscale; cbn [vx vy nmul]. rewrite !nadd_nan_r. reflexivity.
Qed.

End NotANumber.

Lemma nan_velocity_spreads_witness :
  velocity (fst (fst (step flat_heading flat_distance
                           (fun _ _ _ => [with_velocity ahead (mkvec NaN NaN)])
                           pusher (constant_rng 0))))
  = mkvec NaN NaN.
Proof.
  apply (nan_velocity_spreads flat_heading flat_distance
           (fun _ _ _ => [with_velocity ahead (mkvec NaN NaN)])
           pusher (constant_rng 0)).
  right. exists (with_velocity ahead (mkvec NaN NaN)). split.
  - left; reflexivity.
  - exact not_vfinite_nan.
Defined.

(** ** A separation distance that excludes every neighbour *)

Lemma fold_left_skip_all : forall {A : Type} (p : A -> bool) (f : A -> vec)
    (l : list A) (acc : vec),
  (forall x, In x l -> p x = false) ->
  fold_left (fun a x => if p x then vsub a (f x) else a) l acc = acc.
Proof.
  intros A p f l. induction l as [|x l IH]; intros acc H; cbn [fold_left].
  - reflexivity.
  - rewrite (H x (or_introl eq_refl)). apply IH.
    intros y Hy. apply H. right; assumption.
Qed.

Section NoSeparation.

Variable get_heading : vec -> vec -> vec.
Variable get_distance : vec -> vec -> num.

(** X10.  When the separation distance of the agent is not a number, or is
    zero or negative while the space reports no negative distance, no
    neighbour is closer than it and [separate] returns the zero vector for
    every neighbour list. *)
Theorem separate_is_zero_without_range : forall self neighbors,
  (separation self = NaN \/
   exists s, separation self = Fin s /\ s <= 0 /\
             forall n d, In n neighbors ->
                         get_distance (pos self) (pos n) = Fin d -> 0 <= d) ->
  separate get_heading get_distance self neighbors = vzero.
Proof.
  intros self neighbors H. unfold separate.
  apply (fold_left_skip_all
           (fun other => nltb (get_distance (pos self) other) (separation self))
           (get_heading (pos self))).
  intros other Hin. apply in_map_iff in Hin as (n & <- & Hn).
  destruct H as [E | (s & E & Hs & Hd)]; rewrite E.
  - unfold nltb. destruct (get_distance (pos self) (pos n)); reflexivity.
  - destruct (get_distance (pos self) (pos n)) as [d|] eqn:Ed; [|reflexivity].
    apply nltb_ge_false. specialize (Hd n d Hn Ed). lra.
Qed.

End NoSeparation.

Lemma flat_distance_nonneg : forall a b d, flat_distance a b = Fin d -> 0 <= d.
Proof.
  intros a b d H. unfold flat_distance, norm in H.
  destruct (nadd _ _) as [r|]; [|discriminate].
  unfold nsqrt in H. destruct (Rlt_dec r 0); [discriminate|].
  injection H as <-. apply sqrt_pos.
Qed.

Lemma separate_is_zero_without_range_witness :
  separate flat_heading flat_distance
           (Boid_init 1 vzero (Fin 1) (mkvec (Fin 1) (Fin 0)) (Fin 10) (Fin 0)
                      susceptible 0%Z None None None)
           [ahead; sample_boid infected 3 (Fin 0.1) (Fin 0.5)]
  = vzero.
Proof.
  apply (separate_is_zero_without_range flat_heading flat_distance).
  right. exists 0. split; [reflexivity|]. split; [lra|].
  intros n d _ Hd. exact (flat_distance_nonneg _ _ _ Hd).
Defined.

(** * The motion update on binary64 numbers *)

(** ** The transition leaves position, velocity and speed alone *)



Lemma f64_bind_run : forall {A B : Type} (m : F64.M A) (k : A -> F64.M B) g,
  F64.bind m k g = k (fst (m g)) (snd (m g)).
Proof. intros A B m k g. unfold F64.bind. destruct (m g); reflexivity. Qed.





Section F64Motion.

Variable get_heading : F64.vec -> F64.vec -> F64.vec.
Variable get_distance : F64.vec -> F64.vec -> float.
Variable get_neighbors : F64.vec -> float -> bool -> list F64.Boid.
Variable torus_adj : F64.vec -> F64.vec.




End F64Motion.

(** ** Division by a zero norm *)




Section F64Claims.

Variable get_heading : F64.vec -> F64.vec -> F64.vec.
Variable get_distance : F64.vec -> F64.vec -> float.
Variable get_neighbors : F64.vec -> float -> bool -> list F64.Boid.
Variable torus_adj : F64.vec -> F64.vec.



End F64Claims.

(** ** Closed instances on binary64 numbers *)




(** Underflow in the other direction: the combined velocity (2^-700, 0) of
    [slow] is not zero but its computed norm is, and the velocity after
    [step] is (infinity, not a number). *)
Example f64_underflow_gives_infinity :
  F64.norm (f64_combined F64.flat_heading F64.flat_distance (fun _ _ _ => [])
                         F64.slow)
  = 0%float /\
  F64.velocity (fst (fst (F64.step F64.flat_heading F64.flat_distance
                                   (fun _ _ _ => []) F64.no_adjustment
                                   F64.slow F64.zeros)))
  = F64.mkvec infinity nan.
Proof. repeat split. Qed.

(** An ordinary case: [cruiser] sees no neighbour, its velocity (3, 4) is
    divided by 5 and the result has length 1 up to the last bit. *)
Example f64_unit_length_ordinary :
  F64.velocity (fst (fst (F64.step F64.flat_heading F64.flat_distance
                                   (fun _ _ _ => []) F64.no_adjustment
                                   F64.cruiser F64.zeros)))
  = F64.mkvec 0x1.3333333333333p-1 0x1.999999999999ap-1 /\
  (abs (F64.norm (F64.velocity
                    (fst (fst (F64.step F64.flat_heading F64.flat_distance
                                        (fun _ _ _ => []) F64.no_adjustment
                                        F64.cruiser F64.zeros))))
        - 1) <=? 0x1p-52)%float = true.
Proof. split; reflexivity. Qed.

(** ** Motion and infection within one step, on binary64 numbers *)

Lemma f64_expose_with_velocity : forall neighbor self v g,
  F64.expose neighbor (F64.with_velocity self v) g
  = (F64.with_velocity (fst (F64.expose neighbor self g)) v,
     snd (F64.expose neighbor self g)).
Proof.
  intros neighbor self v g. unfold F64.expose.
  destruct (F64.status neighbor =? infected)%string; [|reflexivity].
  rewrite !f64_bind_run. unfold F64.random; cbn [fst snd].
  cbn [F64.infection_rate F64.with_velocity].
  destruct (PrimFloat.ltb _ _); reflexivity.
Qed.

Lemma f64_for_each_expose_with_velocity : forall neighbors self v g,
  F64.for_each F64.expose neighbors (F64.with_velocity self v) g
  = (F64.with_velocity (fst (F64.for_each F64.expose neighbors self g)) v,
     snd (F64.for_each F64.expose neighbors self g)).
Proof.
  induction neighbors as [|n ns IH]; intros self v g; cbn [F64.for_each].
  - reflexivity.
  - rewrite !f64_bind_run, f64_expose_with_velocity. cbn [fst snd].
    apply IH.
Qed.

Lemma f64_resolution_with_velocity : forall self v g,
  F64.resolution (F64.with_velocity self v) g
  = (F64.with_velocity (fst (F64.resolution self g)) v,
     snd (F64.resolution self g)).
Proof.
  intros self v g. unfold F64.resolution.
  cbn [F64.status F64.infection_time F64.motality F64.with_velocity].
  destruct (F64.status self =? infected)%string; [|reflexivity].
  rewrite !f64_bind_run.
  destruct (F64.infection_time self >? 10)%Z; [|reflexivity].
  rewrite !f64_bind_run. unfold F64.random; cbn [fst snd].
  destruct (PrimFloat.ltb _ _); reflexivity.
Qed.

Lemma f64_infection_recover_with_velocity : forall self v neighbors g,
  F64.infection_recover (F64.with_velocity self v) neighbors g
  = (F64.with_velocity (fst (F64.infection_recover self neighbors g)) v,
     snd (F64.infection_recover self neighbors g)).
Proof.
  intros self v neighbors g. unfold F64.infection_recover.
  rewrite !f64_bind_run.
  assert (He : F64.exposure (F64.with_velocity self v) neighbors g
               = (F64.with_velocity (fst (F64.exposure self neighbors g)) v,
                  snd (F64.exposure self neighbors g))).
  { unfold F64.exposure. cbn [F64.status F64.with_velocity].
    destruct (truthy neighbors); [|reflexivity].
    destruct (F64.status self =? susceptible)%string; [|reflexivity].
    apply f64_for_each_expose_with_velocity. }
  rewrite He. cbn [fst snd]. apply f64_resolution_with_velocity.
Qed.

Section F64StepComposition.

Variable get_heading : F64.vec -> F64.vec -> F64.vec.
Variable get_distance : F64.vec -> F64.vec -> float.
Variable get_neighbors : F64.vec -> float -> bool -> list F64.Boid.
Variable torus_adj : F64.vec -> F64.vec.

(** X6.  [step] performs on the health fields exactly the transition that
    [infection_recover] alone performs on the agent as it stood before the
    step, with the neighbours found around the old position, and draws the
    same samples: the agent it leaves is the result of that transition with
    the velocity replaced by the normalised one and [pos] replaced by the
    position the space stored.  Steering decides nothing about the health
    fields and the transition nothing about the motion. *)
Theorem f64_step_is_motion_beside_transition : forall self g,
  F64.step get_heading get_distance get_neighbors torus_adj self g
  = ((F64.with_pos
        (F64.with_velocity
           (fst (F64.infection_recover self
                   (get_neighbors (F64.pos self) (F64.vision self) false) g))
           (F64.vdivs (f64_combined get_heading get_distance get_neighbors self)
              (F64.norm (f64_combined get_heading get_distance get_neighbors self))))
        (torus_adj
           (F64.vadd (F64.pos self)
              (F64.vscale
                 (F64.vdivs (f64_combined get_heading get_distance get_neighbors self)
                    (F64.norm (f64_combined get_heading get_distance get_neighbors self)))
                 (F64.speed self)))),
      F64.vadd (F64.pos self)
        (F64.vscale
           (F64.vdivs (f64_combined get_heading get_distance get_neighbors self)
              (F64.norm (f64_combined get_heading get_distance get_neighbors self)))
           (F64.speed self))),
     snd (F64.infection_recover self
            (get_neighbors (F64.pos self) (F64.vision self) false) g)).
Proof.
  intros self g. unfold F64.step. rewrite f64_bind_run.
  cbn [F64.velocity F64.pos F64.speed F64.with_velocity].
  fold (f64_combined get_heading get_distance get_neighbors self).
  set (v := F64.vdivs _ _).
  change (F64.with_velocity
            (F64.with_velocity self
               (f64_combined get_heading get_distance get_neighbors self)) v)
    with (F64.with_velocity self v).
  rewrite f64_infection_recover_with_velocity. reflexivity.
Qed.

End F64StepComposition.
